(** * The completion client of [examples/python/example.py]

    A shallow embedding of [ask_ai] and of the two example call sites that
    the specification talks about ([example5_deterministic] and
    [example7_error_handling]), together with the part of the [requests]
    library that the client relies on: the exception hierarchy,
    [Response.raise_for_status] and [Response.json].  The module
    [Script] holds the seven examples and [main] with their output.

    Python dictionaries are finite maps ([gmap]) from strings to values,
    the network and the server behind [requests.post] are an explicit
    state that every call threads through, and a Python call either
    returns a value or raises an exception. *)

From Stdlib Require Import ZArith String List.
From Stdlib Require Import Floats.SpecFloat.
From stdpp Require Import base option strings gmap pretty.

#[local] Set Warnings "-register-all".
#[local] Open Scope Z_scope.

(** ** Python values *)

(** The values that travel in a payload or come back from [json.loads].
    A Python [float] is an IEEE 754 binary64 number. *)
Inductive PyValue : Type :=
| PyNone
| PyBool (b : bool)
| PyInt (n : Z)
| PyFloat (f : spec_float)
| PyStr (s : string)
| PyList (l : list PyValue)
| PyDict (d : gmap string PyValue).

(** [v is None] *)
Definition is_None (v : PyValue) : bool :=
  match v with
  | PyNone => true
  | _ => false
  end.

(** Truth value testing, as [if v:] does it. *)
Definition truthy (v : PyValue) : bool :=
  match v with
  | PyNone => false
  | PyBool b => b
  | PyInt n => negb (n =? 0)
  | PyFloat (S754_zero _) => false
  | PyFloat _ => true
  | PyStr s => negb (String.eqb s "")
  | PyList l => match l with [] => false | _ => true end
  | PyDict d => negb (bool_decide (d = ∅))
  end.

(** [type(v).__name__] *)
Definition type_name (v : PyValue) : string :=
  match v with
  | PyNone => "NoneType"
  | PyBool _ => "bool"
  | PyInt _ => "int"
  | PyFloat _ => "float"
  | PyStr _ => "str"
  | PyList _ => "list"
  | PyDict _ => "dict"
  end.

(** An optional argument whose default is [None]. *)
Definition of_optional {A : Type} (inj : A -> PyValue) (o : option A) : PyValue :=
  match o with
  | Some a => inj a
  | None => PyNone
  end.

(** ** Exceptions *)

(** The exception classes that can reach the [except] clauses of the
    script: the builtins, [json.JSONDecodeError] and the classes of
    [requests.exceptions]. *)
Inductive ExcClass : Type :=
| BaseException
| Exception
| OSError
| ValueError
| TypeError
| LookupError
| KeyError
| AttributeError
| RuntimeError
| RecursionError
| UnicodeError
| UnicodeEncodeError
| json_JSONDecodeError
| RequestException
| InvalidJSONError
| requests_JSONDecodeError
| HTTPError
| ConnectionError
| ProxyError
| SSLError
| Timeout
| ConnectTimeout
| ReadTimeout
| TooManyRedirects
| InvalidURL
| ChunkedEncodingError.

#[global] Instance ExcClass_eq_dec : EqDecision ExcClass.
Proof. solve_decision. Defined.

(** The direct base classes, [c.__bases__]. *)
Definition bases (c : ExcClass) : list ExcClass :=
  match c with
  | BaseException => []
  | Exception => [BaseException]
  | OSError => [Exception]
  | ValueError => [Exception]
  | TypeError => [Exception]
  | LookupError => [Exception]
  | KeyError => [LookupError]
  | AttributeError => [Exception]
  | RuntimeError => [Exception]
  | RecursionError => [RuntimeError]
  | UnicodeError => [ValueError]
  | UnicodeEncodeError => [UnicodeError]
  | json_JSONDecodeError => [ValueError]
  | RequestException => [OSError]
  | InvalidJSONError => [RequestException]
  | requests_JSONDecodeError => [InvalidJSONError; json_JSONDecodeError]
  | HTTPError => [RequestException]
  | ConnectionError => [RequestException]
  | ProxyError => [ConnectionError]
  | SSLError => [ConnectionError]
  | Timeout => [RequestException]
  | ConnectTimeout => [ConnectionError; Timeout]
  | ReadTimeout => [Timeout]
  | TooManyRedirects => [RequestException]
  | InvalidURL => [RequestException; ValueError]
  | ChunkedEncodingError => [RequestException]
  end.

Fixpoint issubclass_upto (depth : nat) (c target : ExcClass) : bool :=
  bool_decide (c = target) ||
  match depth with
  | O => false
  | S depth' => existsb (fun b => issubclass_upto depth' b target) (bases c)
  end.

(** [issubclass(c, target)]; no chain of bases is longer than six. *)
Definition issubclass (c target : ExcClass) : bool :=
  issubclass_upto 6 c target.

(** A raised exception.  For an exception that comes out of a library
    the client only ever looks at its class and at [str(e)]; the
    exceptions that the client's own statements raise keep their
    argument. *)
Inductive Exc : Type :=
| LibError (c : ExcClass) (text : string)
| Exception_ (arg : PyValue)
| KeyError_ (key : PyValue)
| AttributeError_ (msg : string)
| TypeError_ (msg : string).

(** [type(e)] *)
Definition exc_class (e : Exc) : ExcClass :=
  match e with
  | LibError c _ => c
  | Exception_ _ => Exception
  | KeyError_ _ => KeyError
  | AttributeError_ _ => AttributeError
  | TypeError_ _ => TypeError
  end.

(** The result of evaluating a Python expression or block. *)
Inductive Outcome (A : Type) : Type :=
| Return (a : A)
| Raise (e : Exc).
Arguments Return {A} a.
Arguments Raise {A} e.

(** ** Operations on values *)

(** [data.get(key)] *)
Definition py_get (data : PyValue) (key : string) : Outcome PyValue :=
  match data with
  | PyDict d => Return (default PyNone (d !! key))
  | _ => Raise (AttributeError_
                  ("'" +:+ type_name data +:+ "' object has no attribute 'get'"))
  end.

(** [data[key]], reached in [ask_ai] only after [data.get] succeeded. *)
Definition py_getitem (data : PyValue) (key : string) : Outcome PyValue :=
  match data with
  | PyDict d =>
      match d !! key with
      | Some v => Return v
      | None => Raise (KeyError_ (PyStr key))
      end
  | PyStr _ => Raise (TypeError_ "string indices must be integers, not 'str'")
  | PyList _ => Raise (TypeError_ "list indices must be integers or slices, not str")
  | _ => Raise (TypeError_
                  ("'" +:+ type_name data +:+ "' object is not subscriptable"))
  end.

(** ** The [requests] library *)

(** The keyword arguments of [requests.post] that the script uses. *)
Record Request : Type := mkRequest {
  url : string;
  headers : option (gmap string string);
  json : gmap string PyValue;
  timeout : Z
}.

(** The ways in which [json.loads] gives up on a text other than by
    reporting a syntax error: arrays or objects nested deeper than the
    interpreter's recursion limit, and an integer literal with more
    digits than the interpreter converts (Python 3.11 and later). *)
Inductive DecoderCrash : Type :=
| NestingTooDeep
| IntegerTooLong.

Definition crash_class (crash : DecoderCrash) : ExcClass :=
  match crash with
  | NestingTooDeep => RecursionError
  | IntegerTooLong => ValueError
  end.

(** What [Response.json] finds in the body: a JSON document; text in
    which the decoder reports a syntax error, a [JSONDecodeError] with
    the given message; or text on which the decoder gives up with
    another exception. *)
Inductive Body : Type :=
| JsonBody (v : PyValue)
| MalformedBody (decode_msg : string)
| UnreadableBody (crash : DecoderCrash) (text : string).

Record Response : Type := mkResponse {
  status_code : Z;
  reason : string;
  resp_url : string;
  body : Body
}.

(** [Response.raise_for_status]: an [HTTPError] for the client-error and
    server-error classes of status, nothing for any other status. *)
Definition http_error_msg (r : Response) : string :=
  if bool_decide (400 <= status_code r < 500) then
    pretty (status_code r) +:+ " Client Error: " +:+ reason r
      +:+ " for url: " +:+ resp_url r
  else if bool_decide (500 <= status_code r < 600) then
    pretty (status_code r) +:+ " Server Error: " +:+ reason r
      +:+ " for url: " +:+ resp_url r
  else "".

Definition raise_for_status (r : Response) : Outcome unit :=
  if bool_decide (400 <= status_code r < 500) || bool_decide (500 <= status_code r < 600)
  then Raise (LibError HTTPError (http_error_msg r))
  else Return tt.

(** Up to release 2.26 [Response.json] lets the decoder's own
    [json.JSONDecodeError] through; from 2.27 on it raises
    [requests.exceptions.JSONDecodeError], a [RequestException], in its
    place.  No release converts any other exception of the decoder. *)
Inductive RequestsVersion : Type :=
| Before_2_27
| Since_2_27.

Definition decode_error_class (ver : RequestsVersion) : ExcClass :=
  match ver with
  | Before_2_27 => json_JSONDecodeError
  | Since_2_27 => requests_JSONDecodeError
  end.

Definition Response_json (ver : RequestsVersion) (r : Response) : Outcome PyValue :=
  match body r with
  | JsonBody v => Return v
  | MalformedBody msg => Raise (LibError (decode_error_class ver) msg)
  | UnreadableBody crash text => Raise (LibError (crash_class crash) text)
  end.

(** ** Computations that talk to the network *)

(** A block of Python over a world [W] (the network and the server
    behind it): it returns or raises, and leaves a new world. *)
Definition Py (W A : Type) : Type := W -> Outcome A * W.

Definition ret {W A : Type} (a : A) : Py W A :=
  fun w => (Return a, w).

Definition raise {W A : Type} (e : Exc) : Py W A :=
  fun w => (Raise e, w).

Definition lift {W A : Type} (o : Outcome A) : Py W A :=
  fun w => (o, w).

Definition bind {W A B : Type} (m : Py W A) (k : A -> Py W B) : Py W B :=
  fun w =>
    match m w with
    | (Return a, w') => k a w'
    | (Raise e, w') => (Raise e, w')
    end.

Notation "x <- m ;; k" := (bind m (fun x => k))
  (at level 100, m at next level, right associativity).

(** [try: block / except requests.exceptions.RequestException as e: handler] *)
Definition try_except_RequestException {W A : Type}
    (block : Py W A) (handler : ExcClass -> string -> Py W A) : Py W A :=
  fun w =>
    match block w with
    | (Raise (LibError c text), w') =>
        if issubclass c RequestException then handler c text w'
        else (Raise (LibError c text), w')
    | r => r
    end.

(** ** The script *)

Definition SERVER_URL : string := "http://localhost:8080/completion".

(** Lines 36-44: the dictionary literal, then the comprehension that
    keeps the items whose value is not [None]. *)
Definition remove_None (payload : gmap string PyValue) : gmap string PyValue :=
  filter (fun kv => is_None kv.2 = false) payload.

Definition ask_ai_payload (prompt : string) (system_prompt : option string)
    (temperature : option spec_float) (max_tokens : option Z)
    : gmap string PyValue :=
  let payload : gmap string PyValue :=
    <["prompt" := PyStr prompt]>
      (<["systemPrompt" := of_optional PyStr system_prompt]>
        (<["temperature" := of_optional PyFloat temperature]>
          (<["maxTokens" := of_optional PyInt max_tokens]> ∅))) in
  remove_None payload.

(** The arguments of the [requests.post] call of lines 47-52. *)
Definition ask_ai_request (prompt : string) (system_prompt : option string)
    (temperature : option spec_float) (max_tokens : option Z) : Request :=
  {| url := SERVER_URL;
     headers := Some {["Content-Type" := "application/json"]};
     json := ask_ai_payload prompt system_prompt temperature max_tokens;
     timeout := 30 |}.

Definition connect_failure_prefix : string := "Failed to connect to AI server: ".

Section Client.
Context {W : Type}.
(** [requests.post] over the world, and the installed release. *)
Variable post : Request -> Py W Response.
Variable ver : RequestsVersion.

Definition ask_ai (prompt : string) (system_prompt : option string)
    (temperature : option spec_float) (max_tokens : option Z) : Py W PyValue :=
  try_except_RequestException
    (response <- post (ask_ai_request prompt system_prompt temperature max_tokens) ;;
     _ <- lift (raise_for_status response) ;;
     data <- lift (Response_json ver response) ;;
     err <- lift (py_get data "error") ;;
     if truthy err then
       arg <- lift (py_getitem data "error") ;;
       raise (Exception_ arg)
     else
       lift (py_getitem data "response"))
    (fun _ e => raise (Exception_ (PyStr (connect_failure_prefix +:+ e)))).

(** Lines 134-144.  The [print] calls are left out; the function
    returns the two answers that the script compares. *)
Definition example5_deterministic : Py W (PyValue * PyValue) :=
  let prompt := "List the first 3 programming paradigms" in
  answer1 <- ask_ai prompt None (Some (S754_zero false)) None ;;
  answer2 <- ask_ai prompt None (Some (S754_zero false)) None ;;
  ret (answer1, answer2).

(** Lines 178-188, again without the [print] calls. *)
Definition example7_error_handling : Py W unit :=
  let wrong_url := "http://localhost:9999/completion" in
  try_except_RequestException
    (response <- post {| url := wrong_url;
                         headers := None;
                         json := {["prompt" := PyStr "Hello"]};
                         timeout := 1 |} ;;
     ret tt)
    (fun _ _ => ret tt).

End Client.

(** ** Worlds used to exercise the client *)

(** A response with status 200 whose body decodes to [data]. *)
Definition ok_response (data : PyValue) : Response :=
  {| status_code := 200; reason := "OK"; resp_url := SERVER_URL; body := JsonBody data |}.

(** A response with status 200 whose body the decoder rejects at its
    first character, as it does for an empty body or for HTML text. *)
Definition malformed_response : Response :=
  {| status_code := 200; reason := "OK"; resp_url := SERVER_URL;
     body := MalformedBody "Expecting value: line 1 column 1 (char 0)" |}.

(** A response with status 200 whose body is two hundred thousand
    opening brackets, on which the decoder exhausts the recursion limit. *)
Definition deeply_nested_response : Response :=
  {| status_code := 200; reason := "OK"; resp_url := SERVER_URL;
     body := UnreadableBody NestingTooDeep
               "maximum recursion depth exceeded while decoding a JSON array from a unicode string" |}.

(** A server that answers every request with [resp]; the world counts
    the requests made so far. *)
Definition mock_server (resp : Response) : Request -> Py nat Response :=
  fun _ n => (Return resp, S n).

(** An endpoint at which [requests.post] fails with an exception of
    class [c] whose text is [text]. *)
Definition failing_endpoint (c : ExcClass) (text : string) : Request -> Py nat Response :=
  fun _ n => (Raise (LibError c text), S n).

(** A server whose answer is a function of the request alone: it echoes
    the prompt back. *)
Definition echo_server : Request -> Py nat Response :=
  fun req n =>
    (Return {| status_code := 200; reason := "OK"; resp_url := url req;
               body := JsonBody (PyDict {["response" := default PyNone (json req !! "prompt")]}) |},
     S n).

(** A server that is not a function of the request: it answers with the
    number of requests it has seen. *)
Definition counting_server : Request -> Py nat Response :=
  fun req n =>
    (Return {| status_code := 200; reason := "OK"; resp_url := url req;
               body := JsonBody (PyDict {["response" := PyStr (pretty n)]}) |},
     S n).

(** [requests.post] with a log of the calls made, oldest first. *)
Definition recording {W : Type} (post : Request -> Py W Response)
    : Request -> Py (W * list Request) Response :=
  fun req '(w, log) =>
    let '(o, w') := post req w in (o, (w', log ++ [req])).

(** The keys that an optional argument contributes to the payload. *)
Definition supplied {A : Type} (key : string) (o : option A) : gset string :=
  match o with
  | Some _ => {[key]}
  | None => ∅
  end.

(** ** Comparison and printing *)

(** [f == n] for a float and an integer, which Python compares exactly. *)
Definition float_eq_int (f : spec_float) (n : Z) : bool :=
  match f with
  | S754_zero _ => n =? 0
  | S754_finite s m e =>
      let v := if s then Z.neg m else Z.pos m in
      if 0 <=? e then n =? v * 2 ^ e else n * 2 ^ (- e) =? v
  | _ => false
  end.

(** The integer behind an [int] or a [bool]. *)
Definition as_int (v : PyValue) : option Z :=
  match v with
  | PyBool b => Some (if b then 1 else 0)
  | PyInt n => Some n
  | _ => None
  end.

(** The [float] that the [json] module returns for [NaN]: one object,
    the same in every decoded value. *)
Definition is_nan (v : PyValue) : bool :=
  match v with
  | PyFloat S754_nan => true
  | _ => false
  end.

(** [a == b] on two values that the [json] module decoded, each in its
    own call.  A list or a dictionary compares two items by identity
    before it compares them by value, and of the objects that two
    decoded values can share only NaN differs from itself. *)
Fixpoint py_eq (a b : PyValue) {struct a} : bool :=
  match a, b with
  | PyNone, PyNone => true
  | PyStr s, PyStr s' => String.eqb s s'
  | PyList l, PyList l' =>
      (fix go (l l' : list PyValue) : bool :=
         match l, l' with
         | [], [] => true
         | x :: l, y :: l' => (is_nan x && is_nan y || py_eq x y) && go l l'
         | _, _ => false
         end) l l'
  | PyDict d, PyDict d' =>
      bool_decide (dom d = dom d') &&
      map_fold (fun key v acc =>
                  acc && match d' !! key with
                         | Some v' => is_nan v && is_nan v' || py_eq v v'
                         | None => false
                         end) true d
  | PyFloat f, PyFloat f' => SFeqb f f'
  | PyFloat f, (PyInt _ | PyBool _) => from_option (float_eq_int f) false (as_int b)
  | (PyInt _ | PyBool _), PyFloat f' => from_option (float_eq_int f') false (as_int a)
  | (PyInt _ | PyBool _), (PyInt _ | PyBool _) =>
      bool_decide (as_int a = as_int b)
  | _, _ => false
  end.

(** A piece of printed text: literal characters, or the [str] or [repr]
    of a value that is not a string. *)
Inductive Piece : Type :=
| Text (s : string)
| StrOf (v : PyValue)
| ReprOf (v : PyValue).

(** The text of one [print] call. *)
Definition Line : Type := list Piece.

(** [str(v)], which for a string is the string itself. *)
Definition py_str (v : PyValue) : Line :=
  match v with
  | PyStr s => [Text s]
  | _ => [StrOf v]
  end.

(** [type(e).__name__] for an exception of class [c]. *)
Definition class_name (c : ExcClass) : string :=
  match c with
  | BaseException => "BaseException"
  | Exception => "Exception"
  | OSError => "OSError"
  | ValueError => "ValueError"
  | TypeError => "TypeError"
  | LookupError => "LookupError"
  | KeyError => "KeyError"
  | AttributeError => "AttributeError"
  | RuntimeError => "RuntimeError"
  | RecursionError => "RecursionError"
  | UnicodeError => "UnicodeError"
  | UnicodeEncodeError => "UnicodeEncodeError"
  | json_JSONDecodeError => "JSONDecodeError"
  | RequestException => "RequestException"
  | InvalidJSONError => "InvalidJSONError"
  | requests_JSONDecodeError => "JSONDecodeError"
  | HTTPError => "HTTPError"
  | ConnectionError => "ConnectionError"
  | ProxyError => "ProxyError"
  | SSLError => "SSLError"
  | Timeout => "Timeout"
  | ConnectTimeout => "ConnectTimeout"
  | ReadTimeout => "ReadTimeout"
  | TooManyRedirects => "TooManyRedirects"
  | InvalidURL => "InvalidURL"
  | ChunkedEncodingError => "ChunkedEncodingError"
  end.

(** [str(e)]: the [str] of the one argument, and for a [KeyError] its
    [repr]. *)
Definition exc_str (e : Exc) : Line :=
  match e with
  | LibError _ text => [Text text]
  | Exception_ arg => py_str arg
  | KeyError_ key => [ReprOf key]
  | AttributeError_ msg => [Text msg]
  | TypeError_ msg => [Text msg]
  end.

(** [s * n] *)
Fixpoint str_mul (s : string) (n : nat) : string :=
  match n with
  | O => ""
  | S n' => s +:+ str_mul s n'
  end.

(** The line feed of an escape [\n]. *)
Definition nl : string := String (Ascii.ascii_of_nat 10) "".

(** [try: block / except Exception as e: handler] *)
Definition try_except_Exception {W A : Type}
    (block : Py W A) (handler : Exc -> Py W A) : Py W A :=
  fun w =>
    match block w with
    | (Raise e, w') =>
        if issubclass (exc_class e) Exception then handler e w'
        else (Raise e, w')
    | r => r
    end.

(** ** The script with its output *)

(** The examples and [main] with their [print] calls.  The world is
    paired with the standard output, one entry for each [print] call
    that went through. *)
Module Script.

Section Script.
Context {W : Type}.
(** What the standard output of this run makes of a text: [None] when
    its encoding can encode it, and otherwise the message of the
    [UnicodeEncodeError] that the write raises. *)
Variable stdout_rejects : Line -> option string.
Variable post : Request -> Py W Response.
Variable ver : RequestsVersion.

(** [print(line)]: the text is encoded as a whole before any of it is
    written, so a text that cannot be encoded leaves no output. *)
Definition print (line : Line) : Py (W * list Line) unit :=
  fun '(w, out) =>
    match stdout_rejects line with
    | None => (Return tt, (w, out ++ [line]))
    | Some text => (Raise (LibError UnicodeEncodeError text), (w, out))
    end.

(** [requests.post] in the world that carries the output: it prints
    nothing. *)
Definition post_quiet (req : Request) : Py (W * list Line) Response :=
  fun '(w, out) => let '(o, w') := post req w in (o, (w', out)).

Definition ask_ai := ask_ai post_quiet ver.

Definition example1_simple_question : Py (W * list Line) unit :=
  _ <- print [Text "Example 1: Simple Question"] ;;
  _ <- print [Text (str_mul "=" 40)] ;;
  _ <- print [] ;;
  answer <- ask_ai "What is the capital of France?" None None None ;;
  _ <- print [Text "Q: What is the capital of France?"] ;;
  _ <- print (Text "A: " :: py_str answer) ;;
  print [].

Definition example2_code_generation : Py (W * list Line) unit :=
  _ <- print [Text "Example 2: Code Generation"] ;;
  _ <- print [Text (str_mul "=" 40)] ;;
  _ <- print [] ;;
  code <- ask_ai "Write a Python function to calculate fibonacci numbers"
            (Some "You are an expert Python developer. Write clean, idiomatic Python.")
            None None ;;
  _ <- print [Text "Q: Write a fibonacci function"] ;;
  _ <- print (Text ("A:" +:+ nl) :: py_str code) ;;
  print [].

(** The [float] written [1.2]: 5404319552844595 * 2^-52. *)
Definition float_1_2 : spec_float := S754_finite false 5404319552844595 (-52).

Definition example3_content_writing : Py (W * list Line) unit :=
  _ <- print [Text "Example 3: Creative Writing"] ;;
  _ <- print [Text (str_mul "=" 40)] ;;
  _ <- print [] ;;
  blog_intro <- ask_ai
      "Write an engaging introduction for a blog post about local AI development"
      (Some "You are a technical blogger. Be engaging and informative.")
      (Some float_1_2) None ;;
  _ <- print [Text "Q: Write a blog introduction"] ;;
  _ <- print (Text ("A:" +:+ nl) :: py_str blog_intro) ;;
  print [].

Definition example4_structured_data : Py (W * list Line) unit :=
  _ <- print [Text "Example 4: Structured Data Extraction"] ;;
  _ <- print [Text (str_mul "=" 40)] ;;
  _ <- print [] ;;
  result <- ask_ai
      "Extract the key points from this text as a bullet list: 'Python is a high-level programming language. It emphasizes code readability. It supports multiple programming paradigms.'"
      (Some "Extract information as a concise bullet list.") None None ;;
  _ <- print [Text "Q: Extract key points as bullets"] ;;
  _ <- print (Text ("A:" +:+ nl) :: py_str result) ;;
  print [].

Definition example5_deterministic : Py (W * list Line) unit :=
  _ <- print [Text "Example 5: Deterministic Responses"] ;;
  _ <- print [Text (str_mul "=" 40)] ;;
  _ <- print [] ;;
  let prompt := "List the first 3 programming paradigms" in
  _ <- print [Text "Asking the same question twice with temperature=0.0..."] ;;
  _ <- print [] ;;
  answer1 <- ask_ai prompt None (Some (S754_zero false)) None ;;
  answer2 <- ask_ai prompt None (Some (S754_zero false)) None ;;
  _ <- print (Text "First: " :: py_str answer1) ;;
  _ <- print (Text "Second: " :: py_str answer2) ;;
  _ <- print [Text ("Identical: " +:+ (if py_eq answer1 answer2 then "YES ✓" else "NO ✗"))] ;;
  print [].

Definition example6_token_limit : Py (W * list Line) unit :=
  _ <- print [Text "Example 6: Token Limits"] ;;
  _ <- print [Text (str_mul "=" 40)] ;;
  _ <- print [] ;;
  short <- ask_ai "Explain what an API is" None None (Some 50) ;;
  long <- ask_ai "Explain what an API is" None None (Some 200) ;;
  _ <- print [Text "Short response (max 50 tokens):"] ;;
  _ <- print (py_str short) ;;
  _ <- print [] ;;
  _ <- print [Text "Long response (max 200 tokens):"] ;;
  _ <- print (py_str long) ;;
  print [].

Definition example7_error_handling : Py (W * list Line) unit :=
  _ <- print [Text "Example 7: Error Handling"] ;;
  _ <- print [Text (str_mul "=" 40)] ;;
  _ <- print [] ;;
  _ <- try_except_RequestException
         (let wrong_url := "http://localhost:9999/completion" in
          response <- post_quiet {| url := wrong_url;
                                    headers := None;
                                    json := {["prompt" := PyStr "Hello"]};
                                    timeout := 1 |} ;;
          ret tt)
         (fun c _ =>
            _ <- print [Text ("Caught expected error: " +:+ class_name c)] ;;
            print [Text "This demonstrates proper error handling ✓"]) ;;
  print [].

Definition main : Py (W * list Line) unit :=
  _ <- print [Text "Apple AI Server - Python Examples"] ;;
  _ <- print [Text (str_mul "=" 40)] ;;
  _ <- print [] ;;
  _ <- print [Text "Make sure the server is running: swift run"] ;;
  _ <- print [] ;;
  try_except_Exception
    (_ <- example1_simple_question ;;
     _ <- example2_code_generation ;;
     _ <- example3_content_writing ;;
     _ <- example4_structured_data ;;
     _ <- example5_deterministic ;;
     _ <- example6_token_limit ;;
     _ <- example7_error_handling ;;
     print [Text "All examples completed! ✨"])
    (fun e =>
       _ <- print (Text (nl +:+ "❌ Error: ") :: exc_str e) ;;
       _ <- print [Text (nl +:+ "Troubleshooting:")] ;;
       _ <- print [Text "1. Is the server running? (swift run)"] ;;
       _ <- print [Text "2. Is it on port 8080?"] ;;
       _ <- print [Text "3. Is Apple Intelligence enabled?"] ;;
       print [Text "4. Do you have the requests library? (pip install requests)"]).

End Script.

End Script.

(** ** Vocabulary of the properties of the script *)

(** [ask_ai] returns [v] from the response [resp]: the status passes
    [raise_for_status] and the body is an object without a truthy
    ['error'] whose ['response'] is [v]. *)
Definition answers (resp : Response) (v : PyValue) : Prop :=
  ~ 400 <= status_code resp < 600
  ∧ exists d : gmap string PyValue,
      body resp = JsonBody (PyDict d)
      ∧ truthy (default PyNone (d !! "error")) = false
      ∧ d !! "response" = Some v.

(** Every exception that the block [m] can raise satisfies [P]. *)
Definition raises_only {W A : Type} (P : Exc -> Prop) (m : Py W A) : Prop :=
  forall (w : W) (e : Exc), (m w).1 = Raise e -> P e.

(** A machine where the server listens at [SERVER_URL] and echoes the
    prompt, and where every other address refuses the connection. *)
Definition local_server : Request -> Py nat Response :=
  fun req n =>
    if String.eqb (url req) SERVER_URL then echo_server req n
    else failing_endpoint ConnectionError "Connection refused" req n.

(** A standard output that can encode every text. *)
Definition accepts_everything : Line -> option string :=
  fun _ => None.

(** A standard output that takes literal ASCII text and nothing else. *)
Definition ascii_stdout : Line -> option string :=
  fun line =>
    if forallb (fun piece =>
                  match piece with
                  | Text s => forallb (fun c => Nat.ltb (Ascii.nat_of_ascii c) 128)
                                (list_ascii_of_string s)
                  | _ => false
                  end) line
    then None
    else Some "'ascii' codec can't encode character: ordinal not in range(128)".

(** The lines that [main] prints before its [try] block. *)
Definition banner : list Line :=
  [ [Text "Apple AI Server - Python Examples"];
    [Text "========================================"];
    [];
    [Text "Make sure the server is running: swift run"];
    [] ].

(** The lines that the [except] clause of [main] prints for [e]. *)
Definition troubleshooting (e : Exc) : list Line :=
  [ Text (nl +:+ "❌ Error: ") :: exc_str e;
    [Text (nl +:+ "Troubleshooting:")];
    [Text "1. Is the server running? (swift run)"];
    [Text "2. Is it on port 8080?"];
    [Text "3. Is Apple Intelligence enabled?"];
    [Text "4. Do you have the requests library? (pip install requests)"] ].

(** The arguments of the eight [ask_ai] calls of the examples, in the
    order in which [main] reaches them. *)
Definition Question : Type :=
  string * option string * option spec_float * option Z.

Definition main_questions : list Question :=
  [ ("What is the capital of France?", None, None, None);
    ("Write a Python function to calculate fibonacci numbers",
     Some "You are an expert Python developer. Write clean, idiomatic Python.",
     None, None);
    ("Write an engaging introduction for a blog post about local AI development",
     Some "You are a technical blogger. Be engaging and informative.",
     Some Script.float_1_2, None);
    ("Extract the key points from this text as a bullet list: 'Python is a high-level programming language. It emphasizes code readability. It supports multiple programming paradigms.'",
     Some "Extract information as a concise bullet list.", None, None);
    ("List the first 3 programming paradigms", None, Some (S754_zero false), None);
    ("List the first 3 programming paradigms", None, Some (S754_zero false), None);
    ("Explain what an API is", None, None, Some 50);
    ("Explain what an API is", None, None, Some 200) ].

Definition question_request (q : Question) : Request :=
  let '(prompt, system_prompt, temperature, max_tokens) := q in
  ask_ai_request prompt system_prompt temperature max_tokens.

(** The requests of a complete run of [main], in the order of the
    examples: the eight questions, then the request to port 9999. *)
Definition main_requests : list Request :=
  map question_request main_questions
  ++ [ {| url := "http://localhost:9999/completion";
          headers := None;
          json := {["prompt" := PyStr "Hello"]};
          timeout := 1 |} ].

Section Asking.
Context {W : Type}.
Variable post : Request -> Py W Response.
Variable ver : RequestsVersion.

Definition ask (q : Question) : Py W PyValue :=
  let '(prompt, system_prompt, temperature, max_tokens) := q in
  ask_ai post ver prompt system_prompt temperature max_tokens.

(** How many of the questions, asked in turn, each in the world that
    the one before left, are answered before the first call that
    raises. *)
Fixpoint answered (questions : list Question) (w : W) : nat :=
  match questions with
  | [] => O
  | q :: rest =>
      match ask q w with
      | (Return _, w') => S (answered rest w')
      | (Raise _, _) => O
      end
  end.

(** The world that asking the questions in turn leaves. *)
Fixpoint world_after (questions : list Question) (w : W) : W :=
  match questions with
  | [] => w
  | q :: rest => world_after rest (ask q w).2
  end.

(** The run that started in [w0] with the log [log0] has made the
    first [j] requests and nothing has failed so far. *)
Definition reached (w0 : W) (log0 : list Request) (j : nat)
    (s : W * list Request) : Prop :=
  (j <= answered main_questions w0)%nat
  ∧ s.1 = world_after (take j main_questions) w0
  ∧ s.2 = log0 ++ take j main_requests.

(** The run has made the first [k] requests, for some [k] that exceeds
    the number of answered questions by one at most. *)
Definition stopped (w0 : W) (log0 : list Request) (s : W * list Request) : Prop :=
  exists k : nat,
    (k <= 9)%nat
    ∧ (k <= S (answered main_questions w0))%nat
    ∧ s.2 = log0 ++ take k main_requests.

End Asking.

(** From a state in [P] the block [m] returns [a] in a state in [Q a],
    or raises in a state in [R]; the output is left aside. *)
Definition triple {S A : Type} (P : S -> Prop) (m : Py (S * list Line) A)
    (Q : A -> S -> Prop) (R : S -> Prop) : Prop :=
  forall (s : S) (out : list Line),
    P s ->
    match m (s, out) with
    | (Return a, (s', _)) => Q a s'
    | (Raise _, (s', _)) => R s'
    end.

(** On a standard output that accepts the lines [ideal] prints, [real]
    does what [ideal] does. *)
Definition prints_as {W A : Type} (rejects : Line -> option string)
    (real ideal : Py (W * list Line) A) : Prop :=
  forall (w : W) (out : list Line),
    exists new : list Line,
      (ideal (w, out)).2.2 = out ++ new
      ∧ (Forall (fun line => rejects line = None) new -> real (w, out) = ideal (w, out)).

(** * Properties *)

(** Runs [ask_ai] up to the result of its [requests.post] call. *)
Ltac step_ask_ai Hpost :=
  unfold ask_ai, try_except_RequestException, bind, lift, raise;
  rewrite Hpost; cbn beta iota.

(** ** The payload *)

Lemma remove_None_lookup (payload : gmap string PyValue) (key : string) :
  remove_None payload !! key ≠ Some PyNone.
Proof.
  unfold remove_None. intros H.
  apply map_lookup_filter_Some in H as [_ H]. discriminate H.
Qed.

Lemma ask_ai_payload_lookup (prompt : string) (system_prompt : option string)
    (temperature : option spec_float) (max_tokens : option Z) :
  let payload := ask_ai_payload prompt system_prompt temperature max_tokens in
  payload !! "prompt" = Some (PyStr prompt)
  ∧ payload !! "systemPrompt" = PyStr <$> system_prompt
  ∧ payload !! "temperature" = PyFloat <$> temperature
  ∧ payload !! "maxTokens" = PyInt <$> max_tokens.
Proof.
  destruct system_prompt, temperature, max_tokens; repeat split; reflexivity.
Qed.

Lemma ask_ai_payload_dom (prompt : string) (system_prompt : option string)
    (temperature : option spec_float) (max_tokens : option Z) :
  dom (ask_ai_payload prompt system_prompt temperature max_tokens)
  = {["prompt"]} ∪ supplied "systemPrompt" system_prompt
      ∪ supplied "temperature" temperature ∪ supplied "maxTokens" max_tokens.
Proof.
  destruct system_prompt, temperature, max_tokens; reflexivity.
Qed.

(** ** Stepping through [ask_ai] *)

Lemma HTTPError_is_RequestException : issubclass HTTPError RequestException = true.
Proof. reflexivity. Qed.

(** The classes with which [requests.post] reports that the server could
    not be reached or did not answer in time are all caught by
    [except RequestException]; the builtin classes are not. *)
Lemma transport_classes_caught :
  Forall (fun c => issubclass c RequestException = true)
    [ConnectionError; ProxyError; SSLError; Timeout; ConnectTimeout; ReadTimeout;
     TooManyRedirects; ChunkedEncodingError].
Proof. repeat constructor. Qed.

Lemma builtin_classes_not_caught :
  Forall (fun c => issubclass c RequestException = false)
    [Exception; KeyError; AttributeError; TypeError; ValueError; json_JSONDecodeError].
Proof. repeat constructor. Qed.

Lemma decode_error_class_caught (ver : RequestsVersion) :
  issubclass (decode_error_class ver) RequestException
  = match ver with Before_2_27 => false | Since_2_27 => true end.
Proof. destruct ver; reflexivity. Qed.

Lemma raise_for_status_error (r : Response) :
  400 <= status_code r < 600 ->
  raise_for_status r = Raise (LibError HTTPError (http_error_msg r)).
Proof.
  intros Hs. unfold raise_for_status.
  destruct (decide (status_code r < 500)).
  - rewrite (bool_decide_eq_true_2 (400 <= status_code r < 500)) by lia. reflexivity.
  - rewrite (bool_decide_eq_true_2 (500 <= status_code r < 600)) by lia.
    rewrite orb_true_r. reflexivity.
Qed.

Lemma raise_for_status_ok (r : Response) :
  ~ 400 <= status_code r < 600 ->
  raise_for_status r = Return tt.
Proof.
  intros Hs. unfold raise_for_status.
  rewrite (bool_decide_eq_false_2 (400 <= status_code r < 500)) by lia.
  rewrite (bool_decide_eq_false_2 (500 <= status_code r < 600)) by lia.
  reflexivity.
Qed.

Section Steps.
Context {W : Type}.
Variable post : Request -> Py W Response.
Variable ver : RequestsVersion.
Variables (prompt : string) (system_prompt : option string)
          (temperature : option spec_float) (max_tokens : option Z).

Local Abbreviation request :=
  (ask_ai_request prompt system_prompt temperature max_tokens).
Local Abbreviation call :=
  (ask_ai post ver prompt system_prompt temperature max_tokens).

(** An exception of [requests.post] that the [except] clause catches. *)
Lemma ask_ai_post_caught (w w' : W) (c : ExcClass) (text : string) :
  post request w = (Raise (LibError c text), w') ->
  issubclass c RequestException = true ->
  call w = (Raise (Exception_ (PyStr (connect_failure_prefix +:+ text))), w').
Proof.
  intros Hpost Hc. step_ask_ai Hpost.
  rewrite Hc. reflexivity.
Qed.

(** A status that [raise_for_status] rejects. *)
Lemma ask_ai_status_rejected (w w' : W) (resp : Response) :
  post request w = (Return resp, w') ->
  400 <= status_code resp < 600 ->
  call w = (Raise (Exception_ (PyStr (connect_failure_prefix +:+ http_error_msg resp))), w').
Proof.
  intros Hpost Hs. step_ask_ai Hpost.
  rewrite (raise_for_status_error resp Hs). cbn beta iota.
  rewrite HTTPError_is_RequestException. reflexivity.
Qed.

(** A status that passes, with a body that does not decode. *)
Lemma ask_ai_body_rejected (w w' : W) (resp : Response) (msg : string) :
  post request w = (Return resp, w') ->
  ~ 400 <= status_code resp < 600 ->
  body resp = MalformedBody msg ->
  call w =
    (Raise match ver with
           | Before_2_27 => LibError json_JSONDecodeError msg
           | Since_2_27 => Exception_ (PyStr (connect_failure_prefix +:+ msg))
           end, w').
Proof.
  intros Hpost Hs Hb. step_ask_ai Hpost.
  rewrite (raise_for_status_ok resp Hs). unfold Response_json. rewrite Hb.
  cbn beta iota. rewrite decode_error_class_caught. destruct ver; reflexivity.
Qed.

(** A status that passes, with a body on which the decoder gives up:
    the exception is of a builtin class and nothing catches it. *)
Lemma ask_ai_body_unreadable (w w' : W) (resp : Response)
    (crash : DecoderCrash) (text : string) :
  post request w = (Return resp, w') ->
  ~ 400 <= status_code resp < 600 ->
  body resp = UnreadableBody crash text ->
  call w = (Raise (LibError (crash_class crash) text), w').
Proof.
  intros Hpost Hs Hb. step_ask_ai Hpost.
  rewrite (raise_for_status_ok resp Hs). unfold Response_json. rewrite Hb.
  cbn beta iota. destruct crash; reflexivity.
Qed.

(** A status that passes, with a body that decodes to [data]: the rest
    of the block runs on [data], and nothing it raises is caught. *)
Lemma ask_ai_body_decoded (w w' : W) (resp : Response) (data : PyValue) :
  post request w = (Return resp, w') ->
  ~ 400 <= status_code resp < 600 ->
  body resp = JsonBody data ->
  call w =
    (match py_get data "error" with
     | Raise e => Raise e
     | Return err =>
         if truthy err then
           match py_getitem data "error" with
           | Return arg => Raise (Exception_ arg)
           | Raise e => Raise e
           end
         else py_getitem data "response"
     end, w').
Proof.
  intros Hpost Hs Hb. step_ask_ai Hpost.
  rewrite (raise_for_status_ok resp Hs). unfold Response_json. rewrite Hb.
  cbn beta iota.
  destruct data; cbn; try reflexivity.
  destruct (truthy (default PyNone (d !! "error"))).
  - destruct (d !! "error"); reflexivity.
  - destruct (d !! "response"); reflexivity.
Qed.

(** Whatever happens, the world after [ask_ai] is the world after its
    one [requests.post]. *)
Lemma ask_ai_world (w : W) : (call w).2 = (post request w).2.
Proof.
 
  unfold ask_ai, try_except_RequestException, bind, lift, raise.
  destruct (post _ w) as [[resp|e] w']; cbn beta iota.
  - repeat (case_match; simplify_eq/=); reflexivity.
  - repeat (case_match; simplify_eq/=); reflexivity.
Qed.

(** The outcome of [ask_ai] is determined by the outcome of the
    [requests.post] call. *)
Lemma ask_ai_outcome_congr (w1 w2 : W) :
  (post request w1).1 = (post request w2).1 ->
  (call w1).1 = (call w2).1.
Proof.
 
  unfold ask_ai, try_except_RequestException, bind, lift, raise.
  destruct (post _ w1) as [o1 w1'], (post _ w2) as [o2 w2']; cbn [fst].
  intros ->. destruct o2 as [resp|e]; cbn beta iota.
  - repeat (case_match; simplify_eq/=); reflexivity.
  - repeat (case_match; simplify_eq/=); reflexivity.
Qed.

End Steps.

Lemma ask_ai_recorded {W : Type} (post : Request -> Py W Response)
    (ver : RequestsVersion) (prompt : string) (system_prompt : option string)
    (temperature : option spec_float) (max_tokens : option Z)
    (w : W) (log : list Request) :
  (ask_ai (recording post) ver prompt system_prompt temperature max_tokens (w, log)).2.2
  = log ++ [ask_ai_request prompt system_prompt temperature max_tokens].
Proof.
  rewrite ask_ai_world. unfold recording.
  destruct (post _ w) as [o w']. reflexivity.
Qed.

(** ** The request that is sent *)

(** C1: whatever optional arguments are supplied, the payload of
    [ask_ai] has exactly the key ['prompt'] and one key for each optional
    argument that is not [None], each bound to the argument's value; no
    key is bound to [None]; without [max_tokens] the payload is the one
    built from a literal that never had the ['maxTokens'] entry; and this
    payload is the [json] argument of the one request that is posted. *)
Theorem ask_ai_payload_supplied_keys (prompt : string) (system_prompt : option string)
    (temperature : option spec_float) (max_tokens : option Z) :
  let payload := ask_ai_payload prompt system_prompt temperature max_tokens in
  dom payload
    = {["prompt"]} ∪ supplied "systemPrompt" system_prompt
        ∪ supplied "temperature" temperature ∪ supplied "maxTokens" max_tokens
  ∧ payload !! "prompt" = Some (PyStr prompt)
  ∧ payload !! "systemPrompt" = PyStr <$> system_prompt
  ∧ payload !! "temperature" = PyFloat <$> temperature
  ∧ payload !! "maxTokens" = PyInt <$> max_tokens
  ∧ (∀ key : string, payload !! key ≠ Some PyNone)
  ∧ ask_ai_payload prompt system_prompt temperature None
      = remove_None
          (<["prompt" := PyStr prompt]>
            (<["systemPrompt" := of_optional PyStr system_prompt]>
              (<["temperature" := of_optional PyFloat temperature]> ∅)))
  ∧ (∀ (W : Type) (post : Request -> Py W Response) (ver : RequestsVersion)
       (w : W) (log : list Request),
       ∃ sent : Request,
         (ask_ai (recording post) ver prompt system_prompt temperature max_tokens
            (w, log)).2.2 = log ++ [sent]
         ∧ json sent = payload).
Proof.
  intros payload. subst payload.
  split; [apply ask_ai_payload_dom|].
  destruct (ask_ai_payload_lookup prompt system_prompt temperature max_tokens)
    as (Hp & Hs & Ht & Hm).
  repeat (split; [assumption|]).
  split; [intros key; apply remove_None_lookup|].
  split.
  - destruct system_prompt, temperature; reflexivity.
  - intros W post ver w log. eexists. split; [apply ask_ai_recorded|reflexivity].
Qed.

(** C9: every call of [ask_ai] makes one [requests.post], to
    [SERVER_URL] and with [timeout=30]; the call of the error-handling
    example makes one [requests.post] with [timeout=1] to port 9999 of
    the local host, which is not the server's port. *)
Theorem ask_ai_timeout_30_example7_timeout_1 (W : Type) (post : Request -> Py W Response)
    (ver : RequestsVersion) (prompt : string) (system_prompt : option string)
    (temperature : option spec_float) (max_tokens : option Z)
    (w : W) (log : list Request) :
  (∃ sent : Request,
     (ask_ai (recording post) ver prompt system_prompt temperature max_tokens
        (w, log)).2.2 = log ++ [sent]
     ∧ timeout sent = 30
     ∧ url sent = "http://localhost:8080/completion")
  ∧ (∃ sent : Request,
       (example7_error_handling (recording post) (w, log)).2 .2 = log ++ [sent]
       ∧ timeout sent = 1
       ∧ url sent = "http://localhost:9999/completion"
       ∧ url sent ≠ SERVER_URL).
Proof.
  split.
  - eexists. split; [apply ask_ai_recorded|]. split; reflexivity.
  - eexists. split; [|split; [|split]].
    + unfold example7_error_handling, try_except_RequestException, bind, ret, recording.
      destruct (post _ w) as [[resp|e] w']; cbn beta iota.
      * reflexivity.
      * destruct e as [c text| | | |]; try reflexivity.
        destruct (issubclass c RequestException); reflexivity.
    + reflexivity.
    + reflexivity.
    + discriminate.
Qed.

(** ** Responses *)

Section Responses.
Context {W : Type}.
Variable post : Request -> Py W Response.
Variable ver : RequestsVersion.
Variables (prompt : string) (system_prompt : option string)
          (temperature : option spec_float) (max_tokens : option Z).

Local Abbreviation request :=
  (ask_ai_request prompt system_prompt temperature max_tokens).
Local Abbreviation call :=
  (ask_ai post ver prompt system_prompt temperature max_tokens).

(** C2: when the server answers with status 200 and a JSON object
    whose ['response'] field is the string [x] and which has no
    ['error'] field, [ask_ai] returns [x]. *)
Theorem ask_ai_returns_response_field (w w' : W) (resp : Response)
    (d : gmap string PyValue) (x : string) :
  post request w = (Return resp, w') ->
  status_code resp = 200 ->
  body resp = JsonBody (PyDict d) ->
  d !! "response" = Some (PyStr x) ->
  d !! "error" = None ->
  call w = (Return (PyStr x), w').
Proof.
  intros Hpost Hs Hb Hx He.
  rewrite (ask_ai_body_decoded _ _ _ _ _ _ _ _ _ (PyDict d) Hpost);
    [|lia|assumption].
  cbn. rewrite He, Hx. reflexivity.
Qed.

(** C3: when the status is a success (2xx) and the JSON object has an
    ['error'] field that is a non-empty string, [ask_ai] raises
    [Exception] with exactly that string as its message. *)
Theorem ask_ai_raises_error_field (w w' : W) (resp : Response)
    (d : gmap string PyValue) (msg : string) :
  post request w = (Return resp, w') ->
  200 <= status_code resp < 300 ->
  body resp = JsonBody (PyDict d) ->
  d !! "error" = Some (PyStr msg) ->
  msg ≠ "" ->
  call w = (Raise (Exception_ (PyStr msg)), w').
Proof.
  intros Hpost Hs Hb He Hmsg.
  rewrite (ask_ai_body_decoded _ _ _ _ _ _ _ _ _ (PyDict d) Hpost);
    [|lia|assumption].
  cbn. rewrite He. cbn.
  destruct (String.eqb_spec msg ""); [contradiction|reflexivity].
Qed.

(** C4, as the code has it: when the JSON object has an ['error']
    field whose value is truthy (a non-empty string, for one),
    [ask_ai] fails whatever the status code: with the wrapped status
    error for a 4xx or 5xx status, and with the field's value as the
    message for every other status. *)
Theorem ask_ai_truthy_error_fails (w w' : W) (resp : Response)
    (d : gmap string PyValue) (v : PyValue) :
  post request w = (Return resp, w') ->
  body resp = JsonBody (PyDict d) ->
  d !! "error" = Some v ->
  truthy v = true ->
  call w =
    (Raise (Exception_
              (if bool_decide (400 <= status_code resp < 600)
               then PyStr ("Failed to connect to AI server: " +:+ http_error_msg resp)
               else v)), w').
Proof.
  intros Hpost Hb He Hv.
  destruct (decide (400 <= status_code resp < 600)) as [Hs|Hs].
  - rewrite (bool_decide_eq_true_2 _ Hs).
    exact (ask_ai_status_rejected _ _ _ _ _ _ _ _ _ Hpost Hs).
  - rewrite (bool_decide_eq_false_2 _ Hs).
    rewrite (ask_ai_body_decoded _ _ _ _ _ _ _ _ _ (PyDict d) Hpost);
      [|assumption|assumption].
    cbn. rewrite He. cbn. rewrite Hv. reflexivity.
Qed.

(** C5, as the code has it: when the status is a client or server
    error (400 to 599), [ask_ai] fails with the wrapped status error
    whatever the body [b] is: the message is built from the status
    code, the reason and the URL alone. *)
Theorem ask_ai_fails_on_error_status (w w' : W) (status : Z) (rsn u : string) (b : Body) :
  post request w = (Return (mkResponse status rsn u b), w') ->
  400 <= status < 600 ->
  ∀ b' : Body,
    call w =
      (Raise (Exception_
                (PyStr ("Failed to connect to AI server: "
                        +:+ http_error_msg (mkResponse status rsn u b')))), w').
Proof.
  intros Hpost Hs b'.
  rewrite (ask_ai_status_rejected _ _ _ _ _ _ _ _ _ Hpost) by exact Hs.
  reflexivity.
Qed.

(** C6: when [requests.post] itself fails with an exception of the
    [RequestException] family (connection refused, DNS failure and
    time-outs are among them), [ask_ai] raises [Exception] whose
    message is ["Failed to connect to AI server: "] followed by the
    text of the underlying exception. *)
Theorem ask_ai_wraps_transport_failure (w w' : W) (c : ExcClass) (text : string) :
  post request w = (Raise (LibError c text), w') ->
  issubclass c RequestException = true ->
  call w = (Raise (Exception_ (PyStr ("Failed to connect to AI server: " +:+ text))), w').
Proof.
  intros Hpost Hc.
  exact (ask_ai_post_caught _ _ _ _ _ _ _ _ _ _ Hpost Hc).
Qed.

(** C7, as the code has it: when the status is a success and the body
    is not well-formed JSON, [ask_ai] fails.  When the decoder reports
    the syntax error, its [JSONDecodeError] propagates unchanged only
    with a release of [requests] before 2.27; from 2.27 on it is a
    [RequestException], so it is caught and wrapped like a transport
    error.  When the decoder gives up with another exception (the
    recursion limit on deep nesting, the digit limit on a long integer)
    that exception propagates unchanged with every release. *)
Theorem ask_ai_malformed_json (w w' : W) (resp : Response) :
  post request w = (Return resp, w') ->
  200 <= status_code resp < 300 ->
  (forall msg : string,
     body resp = MalformedBody msg ->
     call w =
       (Raise match ver with
              | Before_2_27 => LibError json_JSONDecodeError msg
              | Since_2_27 =>
                  Exception_ (PyStr ("Failed to connect to AI server: " +:+ msg))
              end, w'))
  ∧ (forall (crash : DecoderCrash) (text : string),
       body resp = UnreadableBody crash text ->
       call w = (Raise (LibError (crash_class crash) text), w')
       ∧ issubclass (crash_class crash) RequestException = false).
Proof.
  intros Hpost Hs.
  assert (Hs' : ~ 400 <= status_code resp < 600) by lia.
  split.
  - intros msg Hb.
    exact (ask_ai_body_rejected _ _ _ _ _ _ _ _ _ _ Hpost Hs' Hb).
  - intros crash text Hb. split.
    + exact (ask_ai_body_unreadable _ _ _ _ _ _ _ _ _ _ _ Hpost Hs' Hb).
    + destruct crash; reflexivity.
Qed.

(** C10: when the status is a success and the JSON object has neither
    a truthy ['error'] field nor a ['response'] key, [ask_ai] fails
    with [KeyError('response')]: no value is returned and the error is
    not the wrapped one. *)
Theorem ask_ai_missing_response_key (w w' : W) (resp : Response)
    (d : gmap string PyValue) :
  post request w = (Return resp, w') ->
  200 <= status_code resp < 300 ->
  body resp = JsonBody (PyDict d) ->
  truthy (default PyNone (d !! "error")) = false ->
  d !! "response" = None ->
  call w = (Raise (KeyError_ (PyStr "response")), w').
Proof.
  intros Hpost Hs Hb He Hr.
  rewrite (ask_ai_body_decoded _ _ _ _ _ _ _ _ _ (PyDict d) Hpost);
    [|lia|assumption].
  cbn. rewrite He, Hr. reflexivity.
Qed.

(** C8: when the outcome of [requests.post] is a function of the
    request alone, a second [ask_ai] call with the same prompt and
    [temperature=0.0] has the outcome of the first, and
    [example5_deterministic] ends with two identical answers (or with
    the exception of its first call). *)
Theorem deterministic_server_identical_answers (w : W) :
  (∀ (req : Request) (w1 w2 : W), (post req w1).1 = (post req w2).1) ->
  let ask := ask_ai post ver prompt None (Some (S754_zero false)) None in
  (ask (ask w).2).1 = (ask w).1
  ∧ (example5_deterministic post ver w).1
    = match (ask_ai post ver "List the first 3 programming paradigms"
               None (Some (S754_zero false)) None w).1 with
      | Return answer => Return (answer, answer)
      | Raise e => Raise e
      end.
Proof.
  intros Hdet ask. split.
  - subst ask. apply ask_ai_outcome_congr, Hdet.
  - unfold example5_deterministic, bind, ret.
    pose proof (ask_ai_outcome_congr post ver
                  "List the first 3 programming paradigms" None
                  (Some (S754_zero false)) None) as Hcongr.
    destruct (ask_ai post ver _ None _ None w) as [[answer1|e] w1] eqn:E1;
      [|reflexivity].
    specialize (Hcongr w1 w (Hdet _ _ _)). rewrite E1 in Hcongr.
    destruct (ask_ai post ver _ None _ None w1) as [o2 w2].
    cbn in Hcongr. subst o2. reflexivity.
Qed.

End Responses.

(** ** The properties on concrete servers *)

Lemma ask_ai_returns_response_field_witness :
  ask_ai (mock_server (ok_response (PyDict {["response" := PyStr "X"]})))
    Since_2_27 "Hello" None None None 0%nat
  = (Return (PyStr "X"), 1%nat).
Proof.
  apply (ask_ai_returns_response_field _ Since_2_27 "Hello" None None None 0%nat 1%nat
           (ok_response (PyDict {["response" := PyStr "X"]}))
           {["response" := PyStr "X"]} "X"); reflexivity.
Defined.

Lemma ask_ai_raises_error_field_witness :
  ask_ai (mock_server (ok_response (PyDict {["error" := PyStr "bad prompt"]})))
    Since_2_27 "Hello" None None None 0%nat
  = (Raise (Exception_ (PyStr "bad prompt")), 1%nat).
Proof.
  apply (ask_ai_raises_error_field _ Since_2_27 "Hello" None None None 0%nat 1%nat
           (ok_response (PyDict {["error" := PyStr "bad prompt"]}))
           {["error" := PyStr "bad prompt"]} "bad prompt");
    [reflexivity|simpl; lia|reflexivity|reflexivity|discriminate].
Defined.

Lemma ask_ai_truthy_error_fails_witness :
  ask_ai (mock_server {| status_code := 503; reason := "Service Unavailable";
                         resp_url := SERVER_URL;
                         body := JsonBody (PyDict {["error" := PyStr "overloaded"]}) |})
    Since_2_27 "Hello" None None None 0%nat
  = (Raise (Exception_ (PyStr "Failed to connect to AI server: 503 Server Error: Service Unavailable for url: http://localhost:8080/completion")), 1%nat).
Proof.
  apply (ask_ai_truthy_error_fails _ Since_2_27 "Hello" None None None 0%nat 1%nat
           {| status_code := 503; reason := "Service Unavailable";
              resp_url := SERVER_URL;
              body := JsonBody (PyDict {["error" := PyStr "overloaded"]}) |}
           {["error" := PyStr "overloaded"]} (PyStr "overloaded")); reflexivity.
Defined.

(** An ['error'] field that is present but empty does not make the call
    fail: with status 200 and the body
    [{"error": "", "response": "ok"}] the call returns ["ok"]. *)
Lemma empty_error_field_is_ignored :
  let d : gmap string PyValue := <["error" := PyStr ""]> {["response" := PyStr "ok"]} in
  d !! "error" = Some (PyStr "")
  ∧ ask_ai (mock_server (ok_response (PyDict d))) Since_2_27 "Hello" None None None 0%nat
    = (Return (PyStr "ok"), 1%nat).
Proof. split; reflexivity. Qed.

Lemma ask_ai_fails_on_error_status_witness :
  ask_ai (mock_server {| status_code := 500; reason := "Internal Server Error";
                         resp_url := SERVER_URL;
                         body := JsonBody (PyDict {["response" := PyStr "X"]}) |})
    Since_2_27 "Hello" None None None 0%nat
  = (Raise (Exception_ (PyStr "Failed to connect to AI server: 500 Server Error: Internal Server Error for url: http://localhost:8080/completion")), 1%nat).
Proof.
  refine (ask_ai_fails_on_error_status _ Since_2_27 "Hello" None None None 0%nat 1%nat
            500 "Internal Server Error" SERVER_URL
            (JsonBody (PyDict {["response" := PyStr "X"]})) _ _ (MalformedBody ""));
    [reflexivity|lia].
Defined.

(** A status outside 2xx that [raise_for_status] lets through: with
    status 300 and the body [{"response": "X"}] the body is decoded and
    the call returns ["X"]. *)
Lemma status_300_is_not_a_failure :
  ~ 200 <= 300 < 300
  ∧ ask_ai (mock_server {| status_code := 300; reason := "Multiple Choices";
                           resp_url := SERVER_URL;
                           body := JsonBody (PyDict {["response" := PyStr "X"]}) |})
      Since_2_27 "Hello" None None None 0%nat
    = (Return (PyStr "X"), 1%nat).
Proof. split; [lia|reflexivity]. Qed.

Lemma ask_ai_wraps_transport_failure_witness :
  ask_ai (failing_endpoint ConnectionError "Connection refused")
    Since_2_27 "Hello" None None None 0%nat
  = (Raise (Exception_ (PyStr "Failed to connect to AI server: Connection refused")), 1%nat).
Proof.
  apply (ask_ai_wraps_transport_failure _ Since_2_27 "Hello" None None None 0%nat 1%nat
           ConnectionError "Connection refused"); reflexivity.
Defined.

Lemma ask_ai_malformed_json_witness :
  ask_ai (mock_server malformed_response) Before_2_27 "Hello" None None None 0%nat
  = (Raise (LibError json_JSONDecodeError "Expecting value: line 1 column 1 (char 0)"),
     1%nat).
Proof.
  apply (ask_ai_malformed_json _ Before_2_27 "Hello" None None None 0%nat 1%nat
           malformed_response);
    [reflexivity|simpl; lia|reflexivity].
Defined.

(** A body of brackets nested too deep is not well-formed JSON either,
    and its [RecursionError] is never wrapped, whatever the release. *)
Example deeply_nested_body_propagates (ver : RequestsVersion) :
  ask_ai (mock_server deeply_nested_response) ver "Hello" None None None 0%nat
  = (Raise (LibError RecursionError
              "maximum recursion depth exceeded while decoding a JSON array from a unicode string"),
     1%nat).
Proof. destruct ver; reflexivity. Qed.

(** With [requests] 2.27 or later a body that is not JSON, under status
    200, ends in the wrapped error of the [except] clause, not in a
    parse error. *)
Lemma malformed_json_is_wrapped :
  issubclass requests_JSONDecodeError RequestException = true
  ∧ ask_ai (mock_server malformed_response) Since_2_27 "Hello" None None None 0%nat
    = (Raise (Exception_ (PyStr "Failed to connect to AI server: Expecting value: line 1 column 1 (char 0)")), 1%nat).
Proof. split; reflexivity. Qed.

Lemma ask_ai_missing_response_key_witness :
  ask_ai (mock_server (ok_response (PyDict {["text" := PyStr "hi"]})))
    Since_2_27 "Hello" None None None 0%nat
  = (Raise (KeyError_ (PyStr "response")), 1%nat).
Proof.
  apply (ask_ai_missing_response_key _ Since_2_27 "Hello" None None None 0%nat 1%nat
           (ok_response (PyDict {["text" := PyStr "hi"]}))
           {["text" := PyStr "hi"]});
    [reflexivity|simpl; lia|reflexivity|reflexivity|reflexivity].
Defined.

Lemma deterministic_server_identical_answers_witness :
  (example5_deterministic echo_server Since_2_27 0%nat).1
  = Return (PyStr "List the first 3 programming paradigms",
            PyStr "List the first 3 programming paradigms").
Proof.
  apply (deterministic_server_identical_answers echo_server Since_2_27 "Hello" 0%nat).
  intros req w1 w2. reflexivity.
Defined.

(** Without the assumption on the server the two answers may differ. *)
Example counting_server_answers_differ :
  (example5_deterministic counting_server Since_2_27 0%nat).1
  = Return (PyStr "0", PyStr "1").
Proof. reflexivity. Qed.

(** ** Further behaviour of [ask_ai] *)

Lemma client_exceptions_not_RequestException (e : Exc) :
  issubclass (exc_class e) RequestException = true ->
  exists (c : ExcClass) (text : string), e = LibError c text.
Proof.
  destruct e as [c text| | | |]; cbn; try discriminate.
  intros _. exists c, text. reflexivity.
Qed.

(** An exception that escapes [ask_ai] is one that the client raised
    itself, of a builtin class, or one that a library raised and the
    [except] clause did not match. *)
Lemma ask_ai_exception_origin {W : Type} (post : Request -> Py W Response)
    (ver : RequestsVersion) (prompt : string) (system_prompt : option string)
    (temperature : option spec_float) (max_tokens : option Z) (w : W) (e : Exc) :
  (ask_ai post ver prompt system_prompt temperature max_tokens w).1 = Raise e ->
  issubclass (exc_class e) RequestException = false
  ∧ (issubclass (exc_class e) Exception = true
     ∨ (post (ask_ai_request prompt system_prompt temperature max_tokens) w).1 = Raise e).
Proof.
  unfold ask_ai, try_except_RequestException, bind, lift, raise.
  destruct (post _ w) as [[resp|e0] w']; cbn beta iota.
  - unfold raise_for_status, Response_json, py_get, py_getitem.
    destruct ver, (body resp) as [data|msg|[] text];
      repeat (case_match; simplify_eq/=); intros; simplify_eq/=;
      split; solve [reflexivity | left; reflexivity].
  - destruct e0 as [c text| | | |]; cbn beta iota.
    + destruct (issubclass c RequestException) eqn:Hc; intros [= <-].
      * split; [reflexivity|left; reflexivity].
      * split; [exact Hc|right; reflexivity].
    + intros [= <-]. split; [reflexivity|right; reflexivity].
    + intros [= <-]. split; [reflexivity|right; reflexivity].
    + intros [= <-]. split; [reflexivity|right; reflexivity].
    + intros [= <-]. split; [reflexivity|right; reflexivity].
Qed.

Section MoreResponses.
Context {W : Type}.
Variable post : Request -> Py W Response.
Variable ver : RequestsVersion.
Variables (prompt : string) (system_prompt : option string)
          (temperature : option spec_float) (max_tokens : option Z).

Local Abbreviation request :=
  (ask_ai_request prompt system_prompt temperature max_tokens).
Local Abbreviation call :=
  (ask_ai post ver prompt system_prompt temperature max_tokens).

(** X1: when the status passes [raise_for_status] and the body is valid
    JSON but not an object (a list, a string, a number, [null]),
    [ask_ai] fails at [data.get] with an [AttributeError] that names the
    type; the error is not wrapped. *)
Theorem ask_ai_non_object_body (w w' : W) (resp : Response) (data : PyValue) :
  post request w = (Return resp, w') ->
  ~ 400 <= status_code resp < 600 ->
  body resp = JsonBody data ->
  (forall d : gmap string PyValue, data ≠ PyDict d) ->
  call w =
    (Raise (AttributeError_
              ("'" +:+ type_name data +:+ "' object has no attribute 'get'")), w').
Proof.
  intros Hpost Hs Hb Hd.
  rewrite (ask_ai_body_decoded _ _ _ _ _ _ _ _ _ data Hpost Hs Hb).
  destruct data; try reflexivity.
  exfalso. exact (Hd d eq_refl).
Qed.

(** X2: when the status passes [raise_for_status] and the JSON object
    has a ['response'] key and no truthy ['error'] field (absent, or
    present and falsy), [ask_ai] returns the value under ['response']
    unchanged, whatever its type: nothing checks that it is a string. *)
Theorem ask_ai_returns_value_unchecked (w w' : W) (resp : Response)
    (d : gmap string PyValue) (v : PyValue) :
  post request w = (Return resp, w') ->
  ~ 400 <= status_code resp < 600 ->
  body resp = JsonBody (PyDict d) ->
  truthy (default PyNone (d !! "error")) = false ->
  d !! "response" = Some v ->
  call w = (Return v, w').
Proof.
  intros Hpost Hs Hb He Hv.
  rewrite (ask_ai_body_decoded _ _ _ _ _ _ _ _ _ (PyDict d) Hpost Hs Hb).
  cbn. rewrite He, Hv. reflexivity.
Qed.

(** X3: no exception of the [RequestException] family ever leaves
    [ask_ai]: whatever [requests.post] and the response do, an exception
    that [ask_ai] raises is not an instance of [RequestException]. *)
Theorem ask_ai_never_raises_RequestException (w : W) (e : Exc) :
  (call w).1 = Raise e ->
  issubclass (exc_class e) RequestException = false.
Proof.
  intros H. exact (proj1 (ask_ai_exception_origin _ _ _ _ _ _ _ _ H)).
Qed.

End MoreResponses.

Lemma ask_ai_non_object_body_witness :
  ask_ai (mock_server (ok_response PyNone)) Since_2_27 "Hello" None None None 0%nat
  = (Raise (AttributeError_ "'NoneType' object has no attribute 'get'"), 1%nat).
Proof.
  apply (ask_ai_non_object_body _ Since_2_27 "Hello" None None None 0%nat 1%nat
           (ok_response PyNone) PyNone);
    [reflexivity|simpl; lia|reflexivity|discriminate].
Defined.

Lemma ask_ai_returns_value_unchecked_witness :
  ask_ai (mock_server (ok_response (PyDict (<["error" := PyNone]>
                                             {["response" := PyInt 42]}))))
    Since_2_27 "Hello" None None None 0%nat
  = (Return (PyInt 42), 1%nat).
Proof.
  apply (ask_ai_returns_value_unchecked _ Since_2_27 "Hello" None None None 0%nat 1%nat
           (ok_response (PyDict (<["error" := PyNone]> {["response" := PyInt 42]})))
           (<["error" := PyNone]> {["response" := PyInt 42]}) (PyInt 42));
    [reflexivity|simpl; lia|reflexivity|reflexivity|reflexivity].
Defined.

Lemma ask_ai_never_raises_RequestException_witness :
  issubclass
    (exc_class (Exception_ (PyStr "Failed to connect to AI server: Connection refused")))
    RequestException = false.
Proof.
  apply (ask_ai_never_raises_RequestException
           (failing_endpoint ConnectionError "Connection refused")
           Since_2_27 "Hello" None None None 0%nat).
  reflexivity.
Defined.

(** ** Requests across the whole script *)

(** X8: the payload determines the arguments: two calls of [ask_ai]
    send the same payload only when they were given the same prompt and
    the same optional arguments. *)
Theorem ask_ai_payload_injective (prompt prompt' : string)
    (system_prompt system_prompt' : option string)
    (temperature temperature' : option spec_float)
    (max_tokens max_tokens' : option Z) :
  ask_ai_payload prompt system_prompt temperature max_tokens
  = ask_ai_payload prompt' system_prompt' temperature' max_tokens' ->
  prompt = prompt' ∧ system_prompt = system_prompt'
  ∧ temperature = temperature' ∧ max_tokens = max_tokens'.
Proof.
  intros Heq.
  destruct (ask_ai_payload_lookup prompt system_prompt temperature max_tokens)
    as (Hp & Hs & Ht & Hm).
  destruct (ask_ai_payload_lookup prompt' system_prompt' temperature' max_tokens')
    as (Hp' & Hs' & Ht' & Hm').
  rewrite Heq in Hp, Hs, Ht, Hm.
  rewrite Hp in Hp'. rewrite Hs in Hs'. rewrite Ht in Ht'. rewrite Hm in Hm'.
  repeat split.
  - congruence.
  - destruct system_prompt, system_prompt'; cbn in Hs'; congruence.
  - destruct temperature, temperature'; cbn in Ht'; congruence.
  - destruct max_tokens, max_tokens'; cbn in Hm'; congruence.
Qed.

Lemma ask_ai_payload_injective_witness :
  "Explain what an API is" = "Explain what an API is"
  ∧ (None : option string) = None
  ∧ (None : option spec_float) = None
  ∧ Some 50 = Some 50.
Proof.
  apply (ask_ai_payload_injective "Explain what an API is" "Explain what an API is"
           None None None None (Some 50) (Some 50)).
  reflexivity.
Defined.


(** ** The script and its output *)

(** [ask_ai] prints nothing: in the world that carries the output it
    does what it does in the world alone. *)
Lemma ask_ai_quiet {W : Type} (post : Request -> Py W Response)
    (ver : RequestsVersion) (prompt : string) (system_prompt : option string)
    (temperature : option spec_float) (max_tokens : option Z)
    (w : W) (out : list Line) :
  Script.ask_ai post ver prompt system_prompt temperature max_tokens (w, out)
  = let '(o, w') := ask_ai post ver prompt system_prompt temperature max_tokens w in
    (o, (w', out)).
Proof.
  unfold Script.ask_ai, ask_ai, try_except_RequestException, bind, lift, raise,
    Script.post_quiet.
  destruct (post _ w) as [[resp|e] w']; cbn beta iota.
  - repeat (case_match; simplify_eq); reflexivity.
  - repeat (case_match; simplify_eq); reflexivity.
Qed.

Lemma bind_print {W A : Type} (rejects : Line -> option string) (line : Line)
    (k : unit -> Py (W * list Line) A) (w : W) (out : list Line) :
  bind (Script.print rejects line) k (w, out)
  = match rejects line with
    | None => k tt (w, out ++ [line])
    | Some text => (Raise (LibError UnicodeEncodeError text), (w, out))
    end.
Proof. unfold bind, Script.print. destruct (rejects line); reflexivity. Qed.

Lemma raises_only_print {W : Type} (P : Exc -> Prop)
    (rejects : Line -> option string) (line : Line) :
  (forall text : string, P (LibError UnicodeEncodeError text)) ->
  raises_only P (Script.print (W := W) rejects line).
Proof.
  intros HP [w out] e. unfold Script.print.
  destruct (rejects line); cbn; intros [= <-]. apply HP.
Qed.

Lemma raises_only_ret {W A : Type} (P : Exc -> Prop) (a : A) :
  raises_only P (ret (W := W) a).
Proof. intros w e H. discriminate H. Qed.

Lemma raises_only_bind {W A B : Type} (P : Exc -> Prop)
    (m : Py W A) (k : A -> Py W B) :
  raises_only P m ->
  (forall a : A, raises_only P (k a)) ->
  raises_only P (bind m k).
Proof.
  intros Hm Hk w e. unfold bind.
  specialize (Hm w). destruct (m w) as [[a|e0] w'].
  - apply Hk.
  - cbn. intros [= <-]. apply Hm. reflexivity.
Qed.

Lemma raises_only_try_except_RequestException {W A : Type} (P : Exc -> Prop)
    (block : Py W A) (handler : ExcClass -> string -> Py W A) :
  raises_only P block ->
  (forall (c : ExcClass) (text : string), raises_only P (handler c text)) ->
  raises_only P (try_except_RequestException block handler).
Proof.
  intros Hb Hh w e. unfold try_except_RequestException.
  specialize (Hb w). destruct (block w) as [[a|e0] w'].
  - discriminate.
  - destruct e0 as [c text| | | |];
      try (cbn; intros [= <-]; apply Hb; reflexivity).
    destruct (issubclass c RequestException).
    + apply Hh.
    + cbn. intros [= <-]. apply Hb. reflexivity.
Qed.

(** Membership in a list that is written out. *)
Ltac in_list :=
  cbn [In banner troubleshooting app];
  repeat first [left; reflexivity | right].

Section ScriptExceptions.
Context {W : Type}.
Variable rejects : Line -> option string.
Variable post : Request -> Py W Response.
Variable ver : RequestsVersion.
Hypothesis post_raises_Exception :
  forall (req : Request) (w : W) (e : Exc),
    (post req w).1 = Raise e -> issubclass (exc_class e) Exception = true.

Local Abbreviation ordinary := (fun e : Exc => issubclass (exc_class e) Exception = true).

Lemma raises_only_post_quiet (req : Request) :
  raises_only ordinary (Script.post_quiet post req).
Proof.
  intros [w out] e. unfold Script.post_quiet.
  pose proof (post_raises_Exception req w) as H.
  destruct (post req w) as [o w']. cbn. intros ->. apply H. reflexivity.
Qed.

Lemma raises_only_ask_ai (prompt : string) (system_prompt : option string)
    (temperature : option spec_float) (max_tokens : option Z) :
  raises_only ordinary
    (Script.ask_ai post ver prompt system_prompt temperature max_tokens).
Proof.
  intros [w out] e. rewrite ask_ai_quiet.
  pose proof (ask_ai_exception_origin post ver prompt system_prompt temperature
                max_tokens w e) as H.
  destruct (ask_ai post ver _ _ _ _ w) as [o w']. cbn in *. intros ->.
  destruct (H eq_refl) as [_ [Ho|Hp]]; [exact Ho|].
  exact (post_raises_Exception _ _ _ Hp).
Qed.

Ltac raises_only_steps :=
  repeat first
    [ apply raises_only_print; intros ?; reflexivity
    | apply raises_only_ret
    | apply raises_only_ask_ai
    | apply raises_only_post_quiet
    | apply raises_only_try_except_RequestException; [|intros ? ?]
    | apply raises_only_bind; [|intros ?] ].

Lemma raises_only_examples :
  raises_only ordinary (Script.example1_simple_question rejects post ver)
  ∧ raises_only ordinary (Script.example2_code_generation rejects post ver)
  ∧ raises_only ordinary (Script.example3_content_writing rejects post ver)
  ∧ raises_only ordinary (Script.example4_structured_data rejects post ver)
  ∧ raises_only ordinary (Script.example5_deterministic rejects post ver)
  ∧ raises_only ordinary (Script.example6_token_limit rejects post ver)
  ∧ raises_only ordinary (Script.example7_error_handling rejects post).
Proof.
  repeat split.
  - unfold Script.example1_simple_question. raises_only_steps.
  - unfold Script.example2_code_generation. raises_only_steps.
  - unfold Script.example3_content_writing. raises_only_steps.
  - unfold Script.example4_structured_data. raises_only_steps.
  - unfold Script.example5_deterministic. raises_only_steps.
  - unfold Script.example6_token_limit. raises_only_steps.
  - unfold Script.example7_error_handling. raises_only_steps.
Qed.

Ltac own_print_step side :=
  rewrite bind_print;
  match goal with
  | |- context [match rejects ?line with _ => _ end] =>
      let text := fresh "text" in
      let E := fresh "E" in
      destruct (rejects line) as [text|] eqn:E;
      [ right; exists line, text;
        split; [exact E|split; [reflexivity|side; in_list]]
      | ]
  end.


End ScriptExceptions.

(** Uses the lines known to be accepted. *)
Ltac accept_lines rejects :=
  repeat match goal with
         | H : rejects ?line = None |- context [rejects ?line] => rewrite H
         end;
  cbv beta iota zeta.

Ltac split_accepted :=
  unfold banner, troubleshooting in *; cbn [app] in *;
  repeat match goal with
         | H : Forall _ (_ :: _) |- _ =>
             let Hx := fresh "Hline" in
             apply Forall_cons in H as [Hx H]; cbv beta in Hx
         end.



(** Two equal NaN answers print ["NO"]: the comparison at the top is by
    value, and a NaN differs from itself. *)
Example example5_nan_prints_no :
  In [Text "Identical: NO ✗"]
     (Script.example5_deterministic accepts_everything
        (mock_server (ok_response (PyDict {["response" := PyFloat S754_nan]})))
        Since_2_27 (0%nat, [])).2.2.
Proof. vm_compute. tauto. Qed.

(** Inside a list the shared NaN is found identical before it is
    compared, so two equal lists that hold it print ["YES"]. *)
Example example5_nan_in_list_prints_yes :
  In [Text "Identical: YES ✓"]
     (Script.example5_deterministic accepts_everything
        (mock_server
           (ok_response (PyDict {["response" := PyList [PyFloat S754_nan]]})))
        Since_2_27 (0%nat, [])).2.2.
Proof. vm_compute. tauto. Qed.

(** On a standard output that cannot encode the cross of the error
    line, [main] itself raises once the server is unreachable. *)
Example main_raises_on_ascii_stdout :
  (Script.main ascii_stdout (failing_endpoint ConnectionError "Connection refused")
     Since_2_27 (0%nat, [])).1
  = Raise (LibError UnicodeEncodeError
             "'ascii' codec can't encode character: ordinal not in range(128)").
Proof. reflexivity. Qed.

(** ** A run whose lines the standard output accepts *)

Lemma prints_as_print {W : Type} (rejects : Line -> option string) (line : Line) :
  prints_as rejects (Script.print (W := W) rejects line)
    (Script.print accepts_everything line).
Proof.
  intros w out. exists [line]. split; [reflexivity|].
  intros H. apply Forall_cons in H as [H _].
  unfold Script.print. rewrite H. reflexivity.
Qed.

Lemma prints_as_quiet {W A : Type} (rejects : Line -> option string)
    (m : Py (W * list Line) A) :
  (forall (w : W) (out : list Line), (m (w, out)).2.2 = out) ->
  prints_as rejects m m.
Proof.
  intros H w out. exists []. rewrite app_nil_r. split; [apply H|reflexivity].
Qed.

Lemma prints_as_ask_ai {W : Type} (rejects : Line -> option string)
    (post : Request -> Py W Response) (ver : RequestsVersion)
    (prompt : string) (system_prompt : option string)
    (temperature : option spec_float) (max_tokens : option Z) :
  prints_as rejects
    (Script.ask_ai post ver prompt system_prompt temperature max_tokens)
    (Script.ask_ai post ver prompt system_prompt temperature max_tokens).
Proof.
  apply prints_as_quiet. intros w out. rewrite ask_ai_quiet.
  destruct (ask_ai post ver _ _ _ _ w). reflexivity.
Qed.

Lemma prints_as_post_quiet {W : Type} (rejects : Line -> option string)
    (post : Request -> Py W Response) (req : Request) :
  prints_as rejects (Script.post_quiet post req) (Script.post_quiet post req).
Proof.
  apply prints_as_quiet. intros w out. unfold Script.post_quiet.
  destruct (post req w). reflexivity.
Qed.

Lemma prints_as_ret {W A : Type} (rejects : Line -> option string) (a : A) :
  prints_as rejects (ret (W := W * list Line) a) (ret a).
Proof. apply prints_as_quiet. reflexivity. Qed.

Lemma prints_as_bind {W A B : Type} (rejects : Line -> option string)
    (real ideal : Py (W * list Line) A)
    (k_real k_ideal : A -> Py (W * list Line) B) :
  prints_as rejects real ideal ->
  (forall a : A, prints_as rejects (k_real a) (k_ideal a)) ->
  prints_as rejects (bind real k_real) (bind ideal k_ideal).
Proof.
  intros Hm Hk w out. destruct (Hm w out) as (new1 & Hout & Heq).
  unfold bind.
  destruct (ideal (w, out)) as [[a|e] [w1 out1]]; cbn in Hout; subst out1.
  - destruct (Hk a w1 (out ++ new1)) as (new2 & Hout2 & Heq2).
    exists (new1 ++ new2). split.
    + rewrite Hout2, app_assoc. reflexivity.
    + intros Hall. apply Forall_app in Hall as [Hall1 Hall2].
      rewrite (Heq Hall1). apply Heq2, Hall2.
  - exists new1. split; [reflexivity|].
    intros Hall. rewrite (Heq Hall). reflexivity.
Qed.

Lemma prints_as_try_except_RequestException {W A : Type}
    (rejects : Line -> option string)
    (real ideal : Py (W * list Line) A)
    (h_real h_ideal : ExcClass -> string -> Py (W * list Line) A) :
  prints_as rejects real ideal ->
  (forall (c : ExcClass) (text : string),
     prints_as rejects (h_real c text) (h_ideal c text)) ->
  prints_as rejects (try_except_RequestException real h_real)
    (try_except_RequestException ideal h_ideal).
Proof.
  intros Hm Hh w out. destruct (Hm w out) as (new1 & Hout & Heq).
  unfold try_except_RequestException.
  destruct (ideal (w, out)) as [[a|e] [w1 out1]]; cbn in Hout; subst out1.
  - exists new1. split; [reflexivity|].
    intros Hall. rewrite (Heq Hall). reflexivity.
  - destruct e as [c text| | | |];
      try (exists new1; split; [reflexivity|];
           intros Hall; rewrite (Heq Hall); reflexivity).
    destruct (issubclass c RequestException) eqn:Hc.
    + destruct (Hh c text w1 (out ++ new1)) as (new2 & Hout2 & Heq2).
      exists (new1 ++ new2). split.
      * rewrite Hout2, app_assoc. reflexivity.
      * intros Hall. apply Forall_app in Hall as [Hall1 Hall2].
        rewrite (Heq Hall1), Hc. apply Heq2, Hall2.
    + exists new1. split; [reflexivity|].
      intros Hall. rewrite (Heq Hall), Hc. reflexivity.
Qed.

Lemma prints_as_try_except_Exception {W A : Type}
    (rejects : Line -> option string)
    (real ideal : Py (W * list Line) A)
    (h_real h_ideal : Exc -> Py (W * list Line) A) :
  prints_as rejects real ideal ->
  (forall e : Exc, prints_as rejects (h_real e) (h_ideal e)) ->
  prints_as rejects (try_except_Exception real h_real)
    (try_except_Exception ideal h_ideal).
Proof.
  intros Hm Hh w out. destruct (Hm w out) as (new1 & Hout & Heq).
  unfold try_except_Exception.
  destruct (ideal (w, out)) as [[a|e] [w1 out1]]; cbn in Hout; subst out1.
  - exists new1. split; [reflexivity|].
    intros Hall. rewrite (Heq Hall). reflexivity.
  - destruct (issubclass (exc_class e) Exception) eqn:Hc.
    + destruct (Hh e w1 (out ++ new1)) as (new2 & Hout2 & Heq2).
      exists (new1 ++ new2). split.
      * rewrite Hout2, app_assoc. reflexivity.
      * intros Hall. apply Forall_app in Hall as [Hall1 Hall2].
        rewrite (Heq Hall1), Hc. apply Heq2, Hall2.
    + exists new1. split; [reflexivity|].
      intros Hall. rewrite (Heq Hall), Hc. reflexivity.
Qed.

Ltac prints_as_steps :=
  repeat first
    [ apply prints_as_print
    | apply prints_as_ret
    | apply prints_as_ask_ai
    | apply prints_as_post_quiet
    | apply prints_as_try_except_RequestException; [|intros ? ?]
    | apply prints_as_try_except_Exception; [|intros ?]
    | apply prints_as_bind; [|intros ?] ].

(** When the standard output accepts every line that [main] prints on
    an output that accepts everything, [main] runs as it does there. *)
Lemma main_prints_as {W : Type} (rejects : Line -> option string)
    (post : Request -> Py W Response) (ver : RequestsVersion) :
  prints_as rejects (Script.main rejects post ver)
    (Script.main accepts_everything post ver).
Proof.
  unfold Script.main, Script.example1_simple_question,
    Script.example2_code_generation, Script.example3_content_writing,
    Script.example4_structured_data, Script.example5_deterministic,
    Script.example6_token_limit, Script.example7_error_handling.
  prints_as_steps.
Qed.

Lemma question_in_main_requests (q : Question) :
  In q main_questions -> In (question_request q) main_requests.
Proof.
  intros H. unfold main_requests. apply in_or_app. left.
  apply in_map. exact H.
Qed.

Section FullRun.
Context {W : Type}.
Variable rejects : Line -> option string.
Variable post : Request -> Py W Response.
Variable ver : RequestsVersion.
Hypothesis server_answers :
  forall (req : Request) (w : W),
    In req main_requests ->
    url req = SERVER_URL ->
    exists (resp : Response) (v : PyValue),
      (post req w).1 = Return resp ∧ answers resp v.
Hypothesis elsewhere_unreachable :
  forall (req : Request) (w : W) (e : Exc),
    In req main_requests ->
    url req ≠ SERVER_URL ->
    (post req w).1 = Raise e ->
    issubclass (exc_class e) RequestException = true.

Lemma ask_ai_recorded_answer (prompt : string) (system_prompt : option string)
    (temperature : option spec_float) (max_tokens : option Z)
    (w : W) (log : list Request) :
  In (prompt, system_prompt, temperature, max_tokens) main_questions ->
  exists (v : PyValue) (w' : W),
    ask_ai (recording post) ver prompt system_prompt temperature max_tokens (w, log)
    = (Return v,
       (w', log ++ [ask_ai_request prompt system_prompt temperature max_tokens])).
Proof.
  intros Hin. apply question_in_main_requests in Hin.
  destruct (server_answers
              (ask_ai_request prompt system_prompt temperature max_tokens) w Hin eq_refl)
    as (resp & v & Hp & Hs & d & Hb & He & Hv).
  exists v, (post (ask_ai_request prompt system_prompt temperature max_tokens) w).2.
  rewrite (ask_ai_body_decoded (recording post) ver prompt system_prompt temperature
             max_tokens (w, log)
             ((post (ask_ai_request prompt system_prompt temperature max_tokens) w).2,
              log ++ [ask_ai_request prompt system_prompt temperature max_tokens])
             resp (PyDict d)); [| |exact Hs|exact Hb].
  - cbn. rewrite He, Hv. reflexivity.
  - unfold recording. destruct (post _ w) as [o w']. cbn in Hp. subst o. reflexivity.
Qed.

Ltac answer_step :=
  rewrite ask_ai_quiet;
  match goal with
  | |- context [ask_ai (recording post) ver ?a ?b ?c ?d (?w, ?log)] =>
      let v := fresh "answer" in
      let w' := fresh "w" in
      destruct (ask_ai_recorded_answer a b c d w log
                  ltac:(cbn [In main_questions]; repeat first [left; reflexivity | right]))
        as (v & w' & ->)
  end;
  cbv beta iota zeta.

Lemma main_full_run (w : W) (log : list Request) (out : list Line) :
  exists (w' : W) (out' : list Line),
    Script.main accepts_everything (recording post) ver ((w, log), out)
    = (Return tt,
       ((w', log ++ main_requests),
        out' ++ [[Text "All examples completed! ✨"]])).
Proof.
  cbv [Script.main Script.example1_simple_question Script.example2_code_generation
       Script.example3_content_writing Script.example4_structured_data
       Script.example5_deterministic Script.example6_token_limit
       Script.example7_error_handling bind Script.print ret accepts_everything
       try_except_Exception try_except_RequestException].
  do 8 answer_step.
  unfold Script.post_quiet, recording.
  match goal with |- context [post ?r ?w0] =>
    pose proof (elsewhere_unreachable r w0) as Hun;
    destruct (post r w0) as [[resp|e] w9]
  end; cbv beta iota zeta.
  - eexists _, _. rewrite <- !(app_assoc log). reflexivity.
  - assert (He : issubclass (exc_class e) RequestException = true).
    { apply Hun; [|discriminate|reflexivity].
      unfold main_requests. apply in_or_app. right. left. reflexivity. }
    destruct (client_exceptions_not_RequestException e He) as (c & text & ->).
    cbn [exc_class] in He. rewrite He.
    eexists _, _. rewrite <- !(app_assoc log). reflexivity.
Qed.


End FullRun.

(** ** Requests across the whole script *)

(** The logging [requests.post] changes nothing but the log. *)
Lemma ask_ai_recording {W : Type} (post : Request -> Py W Response)
    (ver : RequestsVersion) (prompt : string) (system_prompt : option string)
    (temperature : option spec_float) (max_tokens : option Z)
    (w : W) (log : list Request) :
  ask_ai (recording post) ver prompt system_prompt temperature max_tokens (w, log)
  = let '(o, w') := ask_ai post ver prompt system_prompt temperature max_tokens w in
    (o, (w', log ++ [ask_ai_request prompt system_prompt temperature max_tokens])).
Proof.
  unfold ask_ai, try_except_RequestException, bind, lift, raise, recording.
  destruct (post _ w) as [[resp|e] w']; cbn beta iota.
  - repeat (case_match; simplify_eq); reflexivity.
  - repeat (case_match; simplify_eq); reflexivity.
Qed.

Section Asked.
Context {W : Type}.
Variable post : Request -> Py W Response.
Variable ver : RequestsVersion.

Lemma answered_length (questions : list Question) (w : W) :
  (answered post ver questions w <= length questions)%nat.
Proof.
  revert w. induction questions as [|q rest IH]; intros w; cbn; [lia|].
  destruct (ask post ver q w) as [[v|e] w']; [|lia].
  specialize (IH w'). lia.
Qed.

(** Asking one more question after [j] answered ones. *)
Lemma ask_next (questions : list Question) (j : nat) (q : Question) (w0 : W) :
  questions !! j = Some q ->
  (j <= answered post ver questions w0)%nat ->
  world_after post ver (take (S j) questions) w0
  = (ask post ver q (world_after post ver (take j questions) w0)).2
  ∧ (forall (v : PyValue) (w' : W),
       ask post ver q (world_after post ver (take j questions) w0) = (Return v, w') ->
       (S j <= answered post ver questions w0)%nat).
Proof.
  revert j w0. induction questions as [|q0 rest IH]; intros j w0 Hq Hj.
  - discriminate Hq.
  - destruct j as [|j].
    + cbn in Hq. injection Hq as ->. cbn. split; [reflexivity|].
      intros v w' E. rewrite E. lia.
    + cbn in Hq. cbn in Hj. cbn [take world_after answered].
      destruct (ask post ver q0 w0) as [[v0|e0] w1] eqn:E0; [|lia].
      cbn [snd]. destruct (IH j w1 Hq ltac:(lia)) as [Hworld Hans].
      split; [exact Hworld|].
      intros v w' E. specialize (Hans v w' E). lia.
Qed.

End Asked.

Lemma main_requests_lookup (j : nat) (prompt : string) (system_prompt : option string)
    (temperature : option spec_float) (max_tokens : option Z) :
  main_questions !! j = Some (prompt, system_prompt, temperature, max_tokens) ->
  main_requests !! j
  = Some (ask_ai_request prompt system_prompt temperature max_tokens).
Proof.
  intros Hq. unfold main_requests.
  rewrite lookup_app_l.
  - rewrite list_lookup_fmap. exact (f_equal (fmap question_request) Hq).
  - rewrite length_map. apply lookup_lt_Some in Hq. exact Hq.
Qed.

Lemma triple_ret {S A : Type} (P R : S -> Prop) (a : A) :
  triple P (ret a) (fun _ => P) R.
Proof. intros s out HP. exact HP. Qed.

Lemma triple_print {S : Type} (P R : S -> Prop)
    (rejects : Line -> option string) (line : Line) :
  (forall s : S, P s -> R s) ->
  triple P (Script.print rejects line) (fun _ => P) R.
Proof.
  intros HPR s out HP. unfold Script.print.
  destruct (rejects line); [apply HPR|]; exact HP.
Qed.

Lemma triple_bind {S A B : Type} (P : S -> Prop) (Q : A -> S -> Prop)
    (Q' : B -> S -> Prop) (R : S -> Prop)
    (m : Py (S * list Line) A) (k : A -> Py (S * list Line) B) :
  triple P m Q R ->
  (forall a : A, triple (Q a) (k a) Q' R) ->
  triple P (bind m k) Q' R.
Proof.
  intros Hm Hk s out HP. specialize (Hm s out HP). unfold bind.
  destruct (m (s, out)) as [[a|e] [s' out']].
  - apply Hk, Hm.
  - exact Hm.
Qed.

Lemma triple_try_except_RequestException {S A : Type} (P : S -> Prop)
    (Q : A -> S -> Prop) (R : S -> Prop)
    (block : Py (S * list Line) A)
    (handler : ExcClass -> string -> Py (S * list Line) A) :
  triple P block Q R ->
  (forall (c : ExcClass) (text : string), triple R (handler c text) Q R) ->
  triple P (try_except_RequestException block handler) Q R.
Proof.
  intros Hb Hh s out HP. specialize (Hb s out HP).
  unfold try_except_RequestException.
  destruct (block (s, out)) as [[a|e] [s' out']]; [exact Hb|].
  destruct e as [c text| | | |]; try exact Hb.
  destruct (issubclass c RequestException); [|exact Hb].
  apply Hh, Hb.
Qed.

Lemma triple_try_except_Exception {S A : Type} (P : S -> Prop)
    (Q : A -> S -> Prop) (R : S -> Prop)
    (block : Py (S * list Line) A) (handler : Exc -> Py (S * list Line) A) :
  triple P block Q R ->
  (forall e : Exc, triple R (handler e) Q R) ->
  triple P (try_except_Exception block handler) Q R.
Proof.
  intros Hb Hh s out HP. specialize (Hb s out HP).
  unfold try_except_Exception.
  destruct (block (s, out)) as [[a|e] [s' out']]; [exact Hb|].
  destruct (issubclass (exc_class e) Exception); [|exact Hb].
  apply Hh, Hb.
Qed.

Section Segment.
Context {W : Type}.
Variable rejects : Line -> option string.
Variable post : Request -> Py W Response.
Variable ver : RequestsVersion.
Variable w0 : W.
Variable log0 : list Request.

Local Abbreviation Reached := (reached post ver w0 log0).
Local Abbreviation Stopped := (stopped post ver w0 log0).

Lemma reached_stopped (j : nat) (s : W * list Request) :
  (j <= 9)%nat -> Reached j s -> Stopped s.
Proof.
  intros Hj (Ha & _ & Hlog). exists j. repeat split; [exact Hj|lia|exact Hlog].
Qed.

Lemma triple_ask (j : nat) (prompt : string) (system_prompt : option string)
    (temperature : option spec_float) (max_tokens : option Z) :
  main_questions !! j = Some (prompt, system_prompt, temperature, max_tokens) ->
  triple (Reached j)
    (Script.ask_ai (recording post) ver prompt system_prompt temperature max_tokens)
    (fun _ => Reached (S j)) Stopped.
Proof.
  intros Hq [w log] out (Ha & Hw & Hlog). cbn [fst snd] in Hw, Hlog.
  rewrite ask_ai_quiet, ask_ai_recording.
  destruct (ask_next post ver main_questions j _ w0 Hq Ha) as [Hworld Hans].
  rewrite <- Hw in Hworld, Hans. cbn [ask] in Hworld, Hans.
  assert (Hlog' : log ++ [ask_ai_request prompt system_prompt temperature max_tokens]
                  = log0 ++ take (S j) main_requests).
  { rewrite (take_S_r _ _ _ (main_requests_lookup _ _ _ _ _ Hq)).
    rewrite app_assoc, <- Hlog. reflexivity. }
  assert (Hj : (j < 8)%nat) by (apply lookup_lt_Some in Hq; exact Hq).
  destruct (ask_ai post ver prompt system_prompt temperature max_tokens w)
    as [[v|e] w'].
  - split; [exact (Hans v w' eq_refl)|]. split; [symmetry; exact Hworld|exact Hlog'].
  - exists (S j). repeat split; [lia|lia|exact Hlog'].
Qed.

Lemma triple_last_request :
  triple (Reached 8)
    (Script.post_quiet (recording post)
       {| url := "http://localhost:9999/completion";
          headers := None;
          json := {["prompt" := PyStr "Hello"]};
          timeout := 1 |})
    (fun _ => Stopped) Stopped.
Proof.
  intros [w log] out (Ha & _ & Hlog). cbn [fst snd] in Hlog.
  unfold Script.post_quiet, recording.
  assert (Hs : Stopped (w, log ++ [ {| url := "http://localhost:9999/completion";
                                       headers := None;
                                       json := {["prompt" := PyStr "Hello"]};
                                       timeout := 1 |} ])).
  { exists 9%nat. repeat split; [lia|lia|].
    cbn [snd]. rewrite Hlog, <- app_assoc. reflexivity. }
  destruct (post _ w) as [[resp|e] w']; exact Hs.
Qed.

Ltac triple_steps :=
  repeat first
    [ apply triple_ret
    | apply triple_print;
      first [ intros ? H; exact H | intros ?; apply reached_stopped; lia ]
    | eapply triple_ask; reflexivity
    | apply triple_last_request
    | apply triple_try_except_RequestException; [|intros ? ?]
    | eapply triple_bind; [|intros ?] ].

Lemma triple_main :
  triple (Reached 0) (Script.main rejects (recording post) ver)
    (fun _ => Stopped) Stopped.
Proof.
  unfold Script.main, Script.example1_simple_question,
    Script.example2_code_generation, Script.example3_content_writing,
    Script.example4_structured_data, Script.example5_deterministic,
    Script.example6_token_limit, Script.example7_error_handling.
  do 5 (eapply triple_bind;
        [apply triple_print; intros ?; apply reached_stopped; lia|intros ?]).
  apply triple_try_except_Exception; [|intros e; triple_steps].
  triple_steps.
Qed.

End Segment.

(** X9: in every world and on every standard output, whatever succeeds
    or fails, the requests that [main] makes are the first [k] of the
    nine requests of a complete run, in their order, and [k] is one
    more, at most, than the number of questions that [ask_ai], asked
    them in turn, answers before its first failure: once an [ask_ai]
    call has failed no further request is made, and no request is made
    twice. *)
Theorem main_requests_initial_segment {W : Type} (rejects : Line -> option string)
    (post : Request -> Py W Response) (ver : RequestsVersion)
    (w : W) (log : list Request) (out : list Line) :
  exists k : nat,
    (k <= 9)%nat
    ∧ (k <= S (answered post ver main_questions w))%nat
    ∧ (Script.main rejects (recording post) ver ((w, log), out)).2.1.2
      = log ++ take k main_requests.
Proof.
  pose proof (triple_main rejects post ver w log (w, log) out) as H.
  assert (H0 : reached post ver w log 0 (w, log)).
  { split; [lia|]. split; [reflexivity|]. cbn. rewrite app_nil_r. reflexivity. }
  specialize (H H0).
  destruct (Script.main rejects (recording post) ver ((w, log), out))
    as [[[]|e] [s' out']]; exact H.
Qed.

(** ** The script on concrete machines *)




